(** * doser: the dose lifecycle model and the dose collection manager

    A shallow embedding of [doser/__init__.py]: the [Dose] value type with its
    two time windows, the status derived from the wall clock, and the
    [DoseManager] operations over the table rows, followed by the properties
    of the specification.

    Conventions of the embedding.
    - A [DateTime] is an instant, counted in microseconds (the resolution of
      Python datetimes) as a [Z]; a [Duration] is a signed number of
      microseconds.  Range errors of datetimes (years 1..9999) and time zone
      arithmetic are outside the model: every instant is a UTC instant.
    - [now("utc")] is a read of the wall clock.  The code reads it inside the
      properties, several times per call in some of them, so the clock is
      threaded as state: computations live in the monad [M].
    - Python floats (seconds) are exact rationals [Q]; float division raises
      [ZeroDivisionError] on a zero divisor, as in Python.
    - [pendulum.Period] is the library class the windows are instances of;
      the three members the code uses are embedded in [Module Period]. *)

From Stdlib Require Import ZArith QArith Lia Lqa List String Bool.
Import ListNotations.
Local Open Scope Z_scope.

(** ** Python results *)

Inductive exn : Type :=
| ZeroDivisionError
| ValueError.

Inductive PyResult (A : Type) : Type :=
| Ok (a : A)
| Raise (e : exn).
Arguments Ok {A} a.
Arguments Raise {A} e.

(** ** The wall clock *)

Module Clock.
(** [c k] is what the [k]-th call of [now("utc")] returns. *)
Definition t : Type := nat -> Z.

(** A clock that does not advance (time_machine with [tick=False]). *)
Definition frozen (T : Z) : t := fun _ => T.

(** The readings are [T0], then [T1] for ever. *)
Definition steps (T0 T1 : Z) : t :=
  fun k => match k with O => T0 | S _ => T1 end.
End Clock.

(** A computation reads the clock; the state is the number of readings
    taken so far. *)
Definition M (A : Type) : Type := Clock.t -> nat -> A * nat.

Definition ret {A : Type} (a : A) : M A := fun _ k => (a, k).

Definition bind {A B : Type} (m : M A) (f : A -> M B) : M B :=
  fun c k => let (a, k') := m c k in f a c k'.

Definition now : M Z := fun c k => (c k, S k).

Notation "x <- m ;; f" := (bind m (fun x => f))
  (at level 61, m at next level, right associativity).

(** The value of [m] when every clock reading is [T]. *)
Definition at_time {A : Type} (T : Z) (m : M A) : A := fst (m (Clock.frozen T) 0%nat).

(** [x or now("utc")]: the clock is read only when [x] is [None] (a
    datetime is never falsy). *)
Definition or_now (x : option Z) : M Z :=
  match x with
  | Some dt => ret dt
  | None => now
  end.

(** ** pendulum.Duration and pendulum.Period *)

Definition Duration : Type := Z.

Definition seconds (n : Z) : Duration := n * 1000000.
Definition minutes (n : Z) : Duration := seconds (60 * n).
Definition hours (n : Z) : Duration := minutes (60 * n).

Module Period.
(** [Period(start, end)] keeps both ends as given, also when [end] is
    before [start]. *)
Record t : Type := mk { start : Z; end_ : Z }.

(** [Period(start, end, absolute=True)] swaps the ends when inverted. *)
Definition absolute (a b : Z) : t :=
  if b <? a then mk b a else mk a b.

(** [Period.__contains__]: [self.start <= item <= self.end]. *)
Definition contains (p : t) (item : Z) : bool :=
  (start p <=? item) && (item <=? end_ p).

(** The timedelta a Period is: [end - start]. *)
Definition delta (p : t) : Duration := end_ p - start p.

(** A Period is a timedelta, and a timedelta is falsy exactly when it is
    zero: this is what [if period := ...] tests. *)
Definition truthy (p : t) : bool := negb (delta p =? 0).

(** [total_seconds()], a float. *)
Definition total_seconds (p : t) : Q :=
  (inject_Z (delta p) / inject_Z 1000000)%Q.
End Period.

(** [DateTime.diff()] without arguments: the absolute Period between the
    datetime and a fresh reading of the clock. *)
Definition DateTime_diff (dt : Z) : M Period.t :=
  n <- now ;; ret (Period.absolute dt n).

(** Float division. *)
Definition float_div (a b : Q) : PyResult Q :=
  if Qeq_bool b 0%Q then Raise ZeroDivisionError else Ok (a / b)%Q.

(** ** The data model *)

Inductive DoseStatus : Type :=
| processing
| active
| expired.

Definition DoseStatus_eqb (a b : DoseStatus) : bool :=
  match a, b with
  | processing, processing | active, active | expired, expired => true
  | _, _ => false
  end.

(** The value of the enum member. *)
Definition DoseStatus_value (s : DoseStatus) : string :=
  match s with
  | processing => "PROCESSING"
  | active => "ACTIVE"
  | expired => "EXPIRED"
  end.

Module IngestionMethod.
Record t : Type := mk { name : string; onset : Duration; duration : Duration }.
End IngestionMethod.

Definition DRY_HERB : IngestionMethod.t :=
  IngestionMethod.mk "Dry Herb" (minutes 15) (hours 2).
Definition EDIBLE : IngestionMethod.t :=
  IngestionMethod.mk "Edible" (hours 2) (hours 6).
Definition FAKE_TEST_INGEST : IngestionMethod.t :=
  IngestionMethod.mk "TEST" (seconds 15) (seconds 15).

(** What [time_left] returns: the words of a remaining Period (the
    rendering [in_words()] is the library's and is kept symbolic), or the
    literal "Expired". *)
Inductive TimeLeft : Type :=
| InWords (remaining : Period.t)
| ExpiredText.

Module Dose.
Record t : Type := mk {
  strain : string;
  method : IngestionMethod.t;
  ingested : Z;
  processing_time : Period.t;
  active_time : Period.t
}.

Definition new (strain : string) (method : IngestionMethod.t)
    (ingested : option Z) : M t :=
  ingested <- or_now ingested ;;
  let proc_time :=
    Period.mk ingested (ingested + IngestionMethod.onset method) in
  let active_time :=
    Period.mk (Period.end_ proc_time)
              (Period.end_ proc_time + IngestionMethod.duration method) in
  ret (mk strain method ingested proc_time active_time).

(** Returns a new Dose that was taken now. *)
Definition now_from_this (self : t) : M t :=
  new (strain self) (method self) None.

(** The branches of [status] once the clock has been read. *)
Definition status_of (self : t) (n : Z) : DoseStatus :=
  if Period.contains (processing_time self) n then processing
  else if Period.contains (active_time self) n then active
  else expired.

Definition status (self : t) : M DoseStatus :=
  n <- now ;; ret (status_of self n).

Definition current_period (self : t) : M (option Period.t) :=
  s <- status self ;;
  ret (match s with
       | processing => Some (processing_time self)
       | active => Some (active_time self)
       | expired => None
       end).

(** [if period := ...] takes the branch for a period that is neither
    [None] nor a zero timedelta. *)
Definition prog_value (self : t) : M (PyResult Q) :=
  cp <- current_period self ;;
  match cp with
  | Some period =>
      if Period.truthy period then
        left_ <- DateTime_diff (Period.end_ period) ;;
        ret (float_div (Period.total_seconds left_) (Period.total_seconds period))
      else ret (Ok 1%Q)
  | None => ret (Ok 1%Q)
  end.

Definition time_left (self : t) : M TimeLeft :=
  cp <- current_period self ;;
  match cp with
  | Some period =>
      if Period.truthy period then
        left_ <- DateTime_diff (Period.end_ period) ;;
        ret (InWords left_)
      else ret ExpiredText
  | None => ret ExpiredText
  end.

(** The two windows as [new] lays them out. *)
Definition contiguous (d : t) : Prop :=
  Period.start (processing_time d) = ingested d /\
  Period.end_ (processing_time d) = ingested d + IngestionMethod.onset (method d) /\
  Period.start (active_time d) = Period.end_ (processing_time d) /\
  Period.end_ (active_time d) =
    ingested d + IngestionMethod.onset (method d) + IngestionMethod.duration (method d).
End Dose.

(** The order of the lifecycle. *)
Definition phase (s : DoseStatus) : nat :=
  match s with
  | processing => 0%nat
  | active => 1%nat
  | expired => 2%nat
  end.

(** ** The table rows *)

(** What a row shows after [update]. *)
Record Display : Type := mkDisplay {
  status_text : string;
  time_remaining : TimeLeft;
  progress : Q;
  color : string
}.

Module DoseRow.
(** A row is a Python object: [id] is its identity, [dose] the attribute
    that [reset_dose] reassigns. *)
Record t : Type := mk { id : nat; dose : Dose.t }.

Definition status (self : t) : M DoseStatus := Dose.status (dose self).

Definition update (self : t) : M (PyResult Display) :=
  ds <- Dose.status (dose self) ;;
  tl <- Dose.time_left (dose self) ;;
  pv <- Dose.prog_value (dose self) ;;
  ret (match pv with
       | Raise e => Raise e
       | Ok v =>
           Ok (mkDisplay (DoseStatus_value ds) tl v
                 (match ds with
                  | processing => "Blue"
                  | active => "green"
                  | expired => "red"
                  end))
       end).
End DoseRow.

(** [list.remove(x)]: drops the first element that is [x]; rows have no
    [__eq__], so they are compared by identity.  [ValueError] when absent. *)
Fixpoint list_remove (x : DoseRow.t) (l : list DoseRow.t)
    : PyResult (list DoseRow.t) :=
  match l with
  | [] => Raise ValueError
  | y :: l' =>
      if Nat.eqb (DoseRow.id y) (DoseRow.id x) then Ok l'
      else match list_remove x l' with
           | Ok r => Ok (y :: r)
           | Raise e => Raise e
           end
  end.

Definition is_expired (s : DoseStatus) : bool := DoseStatus_eqb s expired.

(** [list(filter(lambda x: x.status is DoseStatus.expired, rows))]: the
    lambda runs once per row, in order, and each run reads the clock. *)
Fixpoint filter_expired (rows : list DoseRow.t) : M (list DoseRow.t) :=
  match rows with
  | [] => ret []
  | x :: rest =>
      s <- DoseRow.status x ;;
      more <- filter_expired rest ;;
      ret (if is_expired s then x :: more else more)
  end.

(** [for dr in to_remove: rows.remove(dr)] *)
Fixpoint remove_each (to_remove rows : list DoseRow.t)
    : PyResult (list DoseRow.t) :=
  match to_remove with
  | [] => Ok rows
  | dr :: rest =>
      match list_remove dr rows with
      | Ok rows' => remove_each rest rows'
      | Raise e => Raise e
      end
  end.

Module DoseManager.
(** [rows] is [self._table.rows]; [next_id] is the identity the next
    [DoseRow(...)] object gets; [run] is [self._run]. *)
Record t : Type := mk { rows : list DoseRow.t; next_id : nat; run : bool }.

Definition update_frequency : Q := 3 # 10.

Definition init : t := mk [] 0 false.

Definition set_rows (self : t) (l : list DoseRow.t) : t :=
  mk l (next_id self) (run self).

Definition add_dose (strain : string) (method : IngestionMethod.t)
    (ingested : option Z) (self : t) : M t :=
  ingested <- or_now ingested ;;
  d <- Dose.new strain method (Some ingested) ;;
  ret (mk (rows self ++ [DoseRow.mk (next_id self) d])
          (S (next_id self)) (run self)).

Definition delete_dose (dose : DoseRow.t) (self : t) : PyResult t :=
  match list_remove dose (rows self) with
  | Ok l => Ok (set_rows self l)
  | Raise e => Raise e
  end.

(** [dose.dose = dose.dose.now_from_this()]: the row object keeps its
    identity and place in the table. *)
Definition reset_dose (dose : DoseRow.t) (self : t) : M t :=
  d <- Dose.now_from_this (DoseRow.dose dose) ;;
  ret (set_rows self
         (map (fun r => if Nat.eqb (DoseRow.id r) (DoseRow.id dose)
                        then DoseRow.mk (DoseRow.id r) d else r)
              (rows self))).

Definition clear_expired (self : t) : M (PyResult t) :=
  to_remove <- filter_expired (rows self) ;;
  ret (match remove_each to_remove (rows self) with
       | Ok l => Ok (set_rows self l)
       | Raise e => Raise e
       end).

(** [time.sleep(secs)]: a negative length is a [ValueError]. *)
Definition time_sleep (secs : Q) : PyResult Q :=
  if Qle_bool 0 secs then Ok secs else Raise ValueError.

(** What the body of the [while] loop hands to [time.sleep] after a pass
    measured between the [perf_counter] readings [start] and [stop]. *)
Definition sleep_length (start stop : Q) : Q :=
  let last_duration := (stop - start)%Q in
  (update_frequency - last_duration)%Q.

(** One turn of the loop of [_updater], the pass being done: the value is
    the time slept. *)
Definition updater_turn (start stop : Q) : PyResult Q :=
  time_sleep (sleep_length start stop).

(** The loop of [_updater], for as many passes as [_run] stays true: one
    pair of [perf_counter] readings per pass.  The value is the list of
    the times slept; an exception ends the thread. *)
Fixpoint _updater (passes : list (Q * Q)) : PyResult (list Q) :=
  match passes with
  | [] => Ok []
  | (start, stop) :: rest =>
      match updater_turn start stop with
      | Raise e => Raise e
      | Ok slept =>
          match _updater rest with
          | Ok l => Ok (slept :: l)
          | Raise e => Raise e
          end
      end
  end.

(** The states the user interface can bring the manager to. *)
Inductive reachable : t -> Prop :=
| reach_init : reachable init
| reach_add s strain method ingested c k :
    reachable s -> reachable (fst (add_dose strain method ingested s c k))
| reach_delete s row s' :
    reachable s -> delete_dose row s = Ok s' -> reachable s'
| reach_reset s row c k :
    reachable s -> In row (rows s) -> reachable (fst (reset_dose row s c k))
| reach_clear s s' c k :
    reachable s -> fst (clear_expired s c k) = Ok s' -> reachable s'.

(** Specification side: the rows of [l] whose status is [expired]
    ([doomed = true]) or is not ([doomed = false]), the row at place [i]
    being judged at the clock reading [k + i]. *)
Fixpoint judged (doomed : bool) (c : Clock.t) (k : nat) (l : list DoseRow.t)
    : list DoseRow.t :=
  match l with
  | [] => []
  | x :: rest =>
      if Bool.eqb (is_expired (Dose.status_of (DoseRow.dose x) (c k))) doomed
      then x :: judged doomed c (S k) rest
      else judged doomed c (S k) rest
  end.

Definition survivors : Clock.t -> nat -> list DoseRow.t -> list DoseRow.t :=
  judged false.

Definition unique_rows (self : t) : Prop :=
  NoDup (map DoseRow.id (rows self)).

Definition doses_contiguous (self : t) : Prop :=
  Forall (fun r => Dose.contiguous (DoseRow.dose r)) (rows self).

Definition ids_allocated (self : t) : Prop :=
  Forall (fun r => (DoseRow.id r < next_id self)%nat) (rows self).
End DoseManager.

(** ** Doses and tables used as examples *)

(** The dose of the test of the repository, taken at instant 0. *)
Definition potato : Dose.t :=
  fst (Dose.new "potato" DRY_HERB (Some 0) (Clock.frozen 0) 0%nat).

(** A dose whose ingestion instant lies ahead of the clock. *)
Definition ahead : Dose.t :=
  fst (Dose.new "ahead" DRY_HERB (Some (minutes 5)) (Clock.frozen 0) 0%nat).

(** Two doses of the test method, both taken at instant 0. *)
Definition two_rows : DoseManager.t :=
  let c := Clock.frozen 0 in
  let s1 := fst (DoseManager.add_dose "Test" FAKE_TEST_INGEST (Some 0)
                   DoseManager.init c 0%nat) in
  fst (DoseManager.add_dose "Test" FAKE_TEST_INGEST (Some 0) s1 c 0%nat).

(** [tests/test___init__.py], [test_status]: a dose is taken, and the clock
    is moved to the start of the processing window, to the start of the
    active window and to the end of the active window; after each move the
    status is read and asserted.  [tick] is the time that passes between a
    move and the reading that follows it (time_machine lets the clock run
    on after [move_to]).  The value tells whether the three assertions
    hold. *)
Definition test_status (dose_type : IngestionMethod.t) (tick : Z) : bool :=
  let dose := fst (Dose.new "potato" dose_type None (Clock.frozen 0) 0%nat) in
  let read (moved_to : Z) := at_time (moved_to + tick) (Dose.status dose) in
  DoseStatus_eqb (read (Period.start (Dose.processing_time dose))) processing
  && DoseStatus_eqb (read (Period.start (Dose.active_time dose))) active
  && DoseStatus_eqb (read (Period.end_ (Dose.active_time dose))) expired.

(** ** The form of [DoseUI] *)

(** The radio groups of [DoseUI.build]: a group's value is the value of
    one of its radios. *)
Inductive MethodChoice : Type :=
| choice_EDIBLE
| choice_DRY_HERB
| choice_TEST.

Inductive WhenChoice : Type :=
| NOW
| EARLIER.

Inductive WhenUnits : Type :=
| units_minutes
| units_hours.



Module DoseUI.
(** The values of the controls when the add button is clicked; the strain
    and the elapsed time are free text. *)
Record t : Type := mk {
  method : MethodChoice;
  strain : string;
  when : WhenChoice;
  when_units : WhenUnits;
  when_value : string
}.

(** The values [build] gives the controls. *)
Definition build : t := mk choice_TEST "TestStrain" NOW units_minutes "0".

Section Add.
(** Python's [int] on a string: [None] stands for its [ValueError]. *)
Variable int : string -> option Z.

End Add.
End DoseUI.

(** ** [doser/utils.py] *)

Module Utils.
(** [time.perf_counter()]: [p k] is its [k]-th reading, in seconds. *)
Definition PerfCounter : Type := nat -> Q.

(** A function that may read the counter while it runs. *)
Definition Timed (A : Type) : Type := PerfCounter -> nat -> A * nat.

Record TimedResult (A : Type) : Type := mkTimedResult {
  result : A;
  duration : Q
}.
Arguments mkTimedResult {A} result duration.
Arguments result {A} _.
Arguments duration {A} _.

Definition timer {A : Type} (f : Timed A) : Timed (TimedResult A) :=
  fun p k =>
    let start := p k in
    let (ret_, k1) := f p (S k) in
    let end_ := p k1 in
    (mkTimedResult ret_ (end_ - start)%Q, S k1).

(** The counter never goes back. *)
Definition nondecreasing (p : PerfCounter) : Prop :=
  forall i j : nat, (i <= j)%nat -> (p i <= p j)%Q.
End Utils.

(** ** Further examples *)


(** A reading of [int] for the examples: every text is the number 5. *)
Definition int_five (text : string) : option Z := Some 5.



(** A counter that advances by a tenth of a second per reading. *)
Definition tenths : Utils.PerfCounter := fun k => (Z.of_nat k # 10)%Q.

(** A timed function that reads the counter once and returns 7. *)
Definition seven : Utils.Timed nat := fun _ k => (7%nat, S k).

(** * Properties *)

(** ** The windows *)

Lemma new_ingested strain method ingested c k :
  Dose.ingested (fst (Dose.new strain method ingested c k)) =
  match ingested with Some dt => dt | None => c k end.
Proof. destruct ingested; reflexivity. Qed.

Lemma new_fields strain method ingested c k :
  Dose.strain (fst (Dose.new strain method ingested c k)) = strain /\
  Dose.method (fst (Dose.new strain method ingested c k)) = method.
Proof. destruct ingested; split; reflexivity. Qed.

Lemma new_contiguous strain method ingested c k :
  Dose.contiguous (fst (Dose.new strain method ingested c k)).
Proof.
  destruct ingested; unfold Dose.contiguous; cbn; repeat split; lia.
Qed.

Lemma status_at_time (d : Dose.t) (T : Z) :
  at_time T (Dose.status d) = Dose.status_of d T.
Proof. reflexivity. Qed.

(** [status] on a dose with the windows of [new], in terms of the ingestion
    instant and the two durations: both windows include both of their
    ends, and the processing window is asked first. *)
Lemma status_of_contiguous (d : Dose.t) (T : Z) :
  Dose.contiguous d ->
  let i := Dose.ingested d in
  let on := IngestionMethod.onset (Dose.method d) in
  let du := IngestionMethod.duration (Dose.method d) in
  Dose.status_of d T =
    if (i <=? T) && (T <=? i + on) then processing
    else if (i + on <=? T) && (T <=? i + on + du) then active
    else expired.
Proof.
  intros (Hps & Hpe & Has & Hae); cbn zeta.
  unfold Dose.status_of, Period.contains.
  rewrite Has, Hae, Hps, Hpe. reflexivity.
Qed.

Ltac by_windows :=
  repeat match goal with
         | |- context [?a <=? ?b] => destruct (Z.leb_spec a b)
         | H : context [?a <=? ?b] |- _ => destruct (Z.leb_spec a b)
         end;
  cbn in *; try reflexivity; try discriminate; try lia.

Lemma status_processing_iff (d : Dose.t) (T : Z) :
  Dose.contiguous d ->
  Dose.status_of d T = processing <->
  Dose.ingested d <= T <= Dose.ingested d + IngestionMethod.onset (Dose.method d).
Proof.
  intros Hc. rewrite (status_of_contiguous d T Hc). cbn zeta.
  split; intros H; by_windows.
Qed.

Lemma status_active_iff (d : Dose.t) (T : Z) :
  Dose.contiguous d ->
  Dose.status_of d T = active <->
  ~ (Dose.ingested d <= T <= Dose.ingested d + IngestionMethod.onset (Dose.method d)) /\
  Dose.ingested d + IngestionMethod.onset (Dose.method d) <= T <=
  Dose.ingested d + IngestionMethod.onset (Dose.method d)
    + IngestionMethod.duration (Dose.method d).
Proof.
  intros Hc. rewrite (status_of_contiguous d T Hc). cbn zeta.
  split; intros H; by_windows.
Qed.

(** ** Float division of two lengths *)

Lemma absolute_delta (a b : Z) :
  Period.delta (Period.absolute a b) = Z.abs (b - a).
Proof.
  unfold Period.absolute, Period.delta.
  destruct (Z.ltb_spec b a); cbn; lia.
Qed.

Lemma seconds_nonzero (z : Z) :
  z <> 0 -> Qeq_bool (inject_Z z / inject_Z 1000000) 0 = false.
Proof.
  intros Hz. destruct (Qeq_bool _ _) eqn:E; [ | reflexivity ].
  apply Qeq_bool_iff in E. exfalso. apply Hz.
  unfold Qeq, Qdiv, Qmult, Qinv, inject_Z in E; cbn in E. lia.
Qed.

Lemma float_div_seconds (a b : Z) :
  b <> 0 ->
  exists v : Q,
    float_div (inject_Z a / inject_Z 1000000) (inject_Z b / inject_Z 1000000) = Ok v /\
    (v == inject_Z a / inject_Z b)%Q.
Proof.
  intros Hb. unfold float_div. rewrite (seconds_nonzero b Hb).
  eexists; split; [ reflexivity | ].
  assert (Hq : ~ (inject_Z b == 0)%Q).
  { unfold Qeq, inject_Z; cbn. lia. }
  field. exact Hq.
Qed.

Lemma truthy_delta (p : Period.t) :
  Period.truthy p = true <-> Period.delta p <> 0.
Proof.
  unfold Period.truthy. destruct (Z.eqb_spec (Period.delta p) 0); cbn; split;
    intros; try congruence; try reflexivity.
Qed.

(** [prog_value] never divides by zero, whatever the dose and however the
    clock moves between its two readings. *)
Lemma prog_value_never_raises (d : Dose.t) (c : Clock.t) (k : nat) :
  exists v : Q, fst (Dose.prog_value d c k) = Ok v.
Proof.
  unfold Dose.prog_value, Dose.current_period, Dose.status, bind, now, ret.
  destruct (Dose.status_of d (c k)); cbn.
  - destruct (Period.truthy (Dose.processing_time d)) eqn:E; cbn.
    + apply truthy_delta in E.
      destruct (float_div_seconds
                  (Period.delta (Period.absolute (Period.end_ (Dose.processing_time d)) (c (S k))))
                  _ E) as (v & Hv & _).
      exists v. exact Hv.
    + eexists; reflexivity.
  - destruct (Period.truthy (Dose.active_time d)) eqn:E; cbn.
    + apply truthy_delta in E.
      destruct (float_div_seconds
                  (Period.delta (Period.absolute (Period.end_ (Dose.active_time d)) (c (S k))))
                  _ E) as (v & Hv & _).
      exists v. exact Hv.
    + eexists; reflexivity.
  - eexists; reflexivity.
Qed.

(** ** Status at an instant *)

(** C9.  For every dose built by [new] from a method with a non-negative
    onset, the status read at the ingestion instant is [processing]. *)
Theorem status_at_ingested_is_processing
    (strain : string) (method : IngestionMethod.t) (ingested : option Z)
    (c : Clock.t) (k : nat) :
  0 <= IngestionMethod.onset method ->
  let d := fst (Dose.new strain method ingested c k) in
  at_time (Dose.ingested d) (Dose.status d) = processing.
Proof.
  intros Hon d. rewrite status_at_time.
  apply status_processing_iff; [ apply new_contiguous | ].
  unfold d. rewrite (proj2 (new_fields strain method ingested c k)). lia.
Qed.

Lemma status_at_ingested_is_processing_witness :
  at_time (Dose.ingested potato) (Dose.status potato) = processing.
Proof.
  apply (status_at_ingested_is_processing "potato" DRY_HERB (Some 0)
           (Clock.frozen 0) 0%nat).
  vm_compute. discriminate.
Defined.

(** C1.  The test dose at the two instants the windows meet: at
    [ingested + onset] the status is still [processing], and at
    [ingested + onset + duration] it is still [active], because a Period
    contains both of its ends. *)
Theorem status_at_window_ends_of_potato :
  at_time (Dose.ingested potato + IngestionMethod.onset DRY_HERB)
          (Dose.status potato) = processing /\
  at_time (Dose.ingested potato + IngestionMethod.onset DRY_HERB
             + IngestionMethod.duration DRY_HERB)
          (Dose.status potato) = active.
Proof. split; reflexivity. Qed.

(** The assertions of the test of the repository hold once the clock has
    run on by a microsecond after each move, and not at the instants
    themselves. *)
Lemma test_status_needs_a_tick :
  test_status DRY_HERB 1 = true /\ test_status EDIBLE 1 = true /\
  test_status DRY_HERB 0 = false /\ test_status EDIBLE 0 = false.
Proof. repeat split. Qed.

(** The same for every dose of [new]: the end of a window of positive
    length belongs to that window. *)
Lemma window_end_belongs_to_window
    (strain : string) (method : IngestionMethod.t) (ingested : option Z)
    (c : Clock.t) (k : nat) :
  let d := fst (Dose.new strain method ingested c k) in
  let on := IngestionMethod.onset method in
  let du := IngestionMethod.duration method in
  (0 <= on -> at_time (Dose.ingested d + on) (Dose.status d) = processing) /\
  (0 < du -> at_time (Dose.ingested d + on + du) (Dose.status d) = active).
Proof.
  intros d on du. pose proof (new_contiguous strain method ingested c k) as Hc.
  pose proof (proj2 (new_fields strain method ingested c k)) as Hm.
  fold d in Hc, Hm. split; intros H; rewrite status_at_time.
  - apply status_processing_iff; [ exact Hc | ]. rewrite Hm. fold on. lia.
  - apply status_active_iff; [ exact Hc | ]. rewrite Hm. fold on du. lia.
Qed.

(** C10.  A caller-supplied ingestion instant is taken as it is by [new]
    and by [add_dose], and for a method with a non-negative onset the
    status read at any instant before it is [expired]. *)
Theorem status_before_ingested_is_expired
    (strain : string) (method : IngestionMethod.t) (ingested T : Z)
    (self : DoseManager.t) (c : Clock.t) (k : nat) :
  0 <= IngestionMethod.onset method ->
  T < ingested ->
  let d := fst (Dose.new strain method (Some ingested) c k) in
  Dose.ingested d = ingested /\
  DoseManager.rows (fst (DoseManager.add_dose strain method (Some ingested) self c k))
    = DoseManager.rows self ++ [DoseRow.mk (DoseManager.next_id self) d] /\
  at_time T (Dose.status d) = expired.
Proof.
  intros Hon HT d. split; [ reflexivity | ]. split; [ reflexivity | ].
  rewrite status_at_time.
  rewrite (status_of_contiguous d T (new_contiguous _ _ _ _ _)). cbn zeta.
  change (Dose.ingested d) with ingested.
  change (Dose.method d) with method.
  by_windows.
Qed.

Lemma status_before_ingested_is_expired_witness :
  at_time 0 (Dose.status ahead) = expired.
Proof.
  apply (status_before_ingested_is_expired "ahead" DRY_HERB (minutes 5) 0
           DoseManager.init (Clock.frozen 0) 0%nat).
  - vm_compute. discriminate.
  - reflexivity.
Defined.

(** C4.  For a dose of [new] and two instants [t1 <= t2], neither before
    the ingestion, the status at [t2] is not an earlier phase of the
    lifecycle than the status at [t1]. *)
Theorem status_monotonic
    (strain : string) (method : IngestionMethod.t) (ingested : option Z)
    (c : Clock.t) (k : nat) (t1 t2 : Z) :
  let d := fst (Dose.new strain method ingested c k) in
  Dose.ingested d <= t1 ->
  t1 <= t2 ->
  (phase (at_time t1 (Dose.status d)) <= phase (at_time t2 (Dose.status d)))%nat.
Proof.
  intros d H1 H2. rewrite !status_at_time.
  pose proof (new_contiguous strain method ingested c k) as Hc. fold d in Hc.
  rewrite (status_of_contiguous d t1 Hc), (status_of_contiguous d t2 Hc).
  cbn zeta. by_windows.
Qed.

Lemma status_monotonic_witness :
  (phase (at_time (minutes 10) (Dose.status potato))
   <= phase (at_time (minutes 20) (Dose.status potato)))%nat.
Proof.
  apply (status_monotonic "potato" DRY_HERB (Some 0) (Clock.frozen 0) 0%nat
           (minutes 10) (minutes 20)).
  - vm_compute. discriminate.
  - vm_compute. discriminate.
Defined.

(** ** Reset *)

(** C5, as the code has it.  [now_from_this] keeps the strain and the
    method, reads the clock once and takes that reading as the ingestion
    instant; the new instant is not before the old one when the old one is
    not ahead of the clock. *)
Theorem now_from_this_spec (d : Dose.t) (c : Clock.t) (k : nat) :
  let d' := fst (Dose.now_from_this d c k) in
  Dose.strain d' = Dose.strain d /\
  Dose.method d' = Dose.method d /\
  Dose.ingested d' = c k /\
  snd (Dose.now_from_this d c k) = S k /\
  (Dose.ingested d <= c k -> Dose.ingested d <= Dose.ingested d').
Proof.
  cbn. repeat split. intros H; exact H.
Qed.

Lemma now_from_this_spec_witness :
  Dose.ingested potato
    <= Dose.ingested (fst (Dose.now_from_this potato (Clock.frozen (hours 1)) 0%nat)).
Proof.
  apply (now_from_this_spec potato (Clock.frozen (hours 1)) 0%nat).
  vm_compute. discriminate.
Defined.

(** C5 as stated fails on a dose whose ingestion instant is ahead of the
    clock: the derived dose is ingested before it. *)
Lemma now_from_this_before_ingested :
  Dose.ingested (at_time 0 (Dose.now_from_this ahead)) < Dose.ingested ahead
  /\ ~ (Dose.ingested (at_time 0 (Dose.now_from_this ahead)) >= Dose.ingested ahead).
Proof. split; vm_compute; [ reflexivity | intros H; apply H; reflexivity ]. Qed.

(** ** Progress *)

(** C6.  On a dose of [new] with non-negative onset and duration,
    [prog_value] returns a number for every course of the clock, and
    whenever it divides, the divisor is not zero.  ([status],
    [current_period] and [time_left] contain no operation that raises.) *)
Theorem derived_state_never_raises
    (strain : string) (method : IngestionMethod.t) (ingested : option Z)
    (c : Clock.t) (k : nat) (c' : Clock.t) (k' : nat) :
  0 <= IngestionMethod.onset method ->
  0 <= IngestionMethod.duration method ->
  let d := fst (Dose.new strain method ingested c k) in
  (exists v : Q, fst (Dose.prog_value d c' k') = Ok v) /\
  (forall p : Period.t,
      fst (Dose.current_period d c' k') = Some p ->
      Period.truthy p = true ->
      ~ (Period.total_seconds p == 0)%Q).
Proof.
  intros _ _ d. split.
  - apply prog_value_never_raises.
  - intros p _ Ht E. apply truthy_delta in Ht.
    apply Qeq_bool_iff in E. unfold Period.total_seconds in E.
    rewrite (seconds_nonzero _ Ht) in E. discriminate.
Qed.

Lemma derived_state_never_raises_witness :
  exists v : Q, fst (Dose.prog_value potato (Clock.frozen (minutes 5)) 0%nat) = Ok v.
Proof.
  apply (derived_state_never_raises "potato" DRY_HERB (Some 0)
           (Clock.frozen 0) 0%nat (Clock.frozen (minutes 5)) 0%nat).
  - vm_compute. discriminate.
  - vm_compute. discriminate.
Defined.

(** [prog_value] when the clock stands at [T] inside a window of non-zero
    length that ends at [e] and is [len] long. *)
Lemma prog_value_in_window (d : Dose.t) (T : Z) (p : Period.t) :
  at_time T (Dose.current_period d) = Some p ->
  Period.contains p T = true ->
  Period.delta p <> 0 ->
  exists v : Q,
    at_time T (Dose.prog_value d) = Ok v /\
    (v == inject_Z (Period.end_ p - T) / inject_Z (Period.delta p))%Q.
Proof.
  unfold at_time, Dose.prog_value, bind.
  intros Hcp Hin Hlen.
  destruct (Dose.current_period d (Clock.frozen T) 0%nat) as [cp k1] eqn:E.
  cbn in Hcp. subst cp.
  rewrite (proj2 (truthy_delta p) Hlen).
  unfold DateTime_diff, bind, now, ret, Period.total_seconds. cbn.
  rewrite absolute_delta.
  unfold Period.contains in Hin. apply andb_true_iff in Hin.
  destruct Hin as [_ Hend]. apply Z.leb_le in Hend.
  unfold Clock.frozen.
  replace (Z.abs (T - Period.end_ p)) with (Period.end_ p - T) by lia.
  apply float_div_seconds. exact Hlen.
Qed.

(** C8.  With the clock at [T], [prog_value] of a dose of [new] is the
    time left in the current window over the length of that window
    (window of non-zero length), and 1 when the dose is expired. *)
Theorem prog_value_spec
    (strain : string) (method : IngestionMethod.t) (ingested : option Z)
    (c : Clock.t) (k : nat) (T : Z) :
  let d := fst (Dose.new strain method ingested c k) in
  let on := IngestionMethod.onset method in
  let du := IngestionMethod.duration method in
  (at_time T (Dose.status d) = processing -> on <> 0 ->
   exists v : Q, at_time T (Dose.prog_value d) = Ok v /\
     (v == inject_Z (Dose.ingested d + on - T) / inject_Z on)%Q) /\
  (at_time T (Dose.status d) = active -> du <> 0 ->
   exists v : Q, at_time T (Dose.prog_value d) = Ok v /\
     (v == inject_Z (Dose.ingested d + on + du - T) / inject_Z du)%Q) /\
  (at_time T (Dose.status d) = expired ->
   at_time T (Dose.prog_value d) = Ok 1%Q).
Proof.
  intros d on du.
  assert (Hp : Dose.processing_time d
               = Period.mk (Dose.ingested d) (Dose.ingested d + on))
    by (destruct ingested; reflexivity).
  assert (Ha : Dose.active_time d
               = Period.mk (Dose.ingested d + on) (Dose.ingested d + on + du))
    by (destruct ingested; reflexivity).
  rewrite status_at_time. unfold Dose.status_of.
  repeat split.
  - intros Hs Hon.
    destruct (Period.contains (Dose.processing_time d) T) eqn:E1;
      [ | destruct (Period.contains (Dose.active_time d) T); discriminate ].
    destruct (prog_value_in_window d T (Dose.processing_time d)) as (v & Hv & Hq).
    + unfold at_time, Dose.current_period, Dose.status, bind, now, ret; cbn.
      unfold Dose.status_of, Clock.frozen. rewrite E1. reflexivity.
    + exact E1.
    + rewrite Hp. unfold Period.delta; cbn. lia.
    + exists v. split; [ exact Hv | ].
      rewrite Hq, Hp. unfold Period.delta; cbn.
      replace (Dose.ingested d + on - Dose.ingested d) with on by lia.
      reflexivity.
  - intros Hs Hdu.
    destruct (Period.contains (Dose.processing_time d) T) eqn:E1; [ discriminate | ].
    destruct (Period.contains (Dose.active_time d) T) eqn:E2; [ | discriminate ].
    destruct (prog_value_in_window d T (Dose.active_time d)) as (v & Hv & Hq).
    + unfold at_time, Dose.current_period, Dose.status, bind, now, ret; cbn.
      unfold Dose.status_of, Clock.frozen. rewrite E1, E2. reflexivity.
    + exact E2.
    + rewrite Ha. unfold Period.delta; cbn. lia.
    + exists v. split; [ exact Hv | ].
      rewrite Hq, Ha. unfold Period.delta; cbn.
      replace (Dose.ingested d + on + du - (Dose.ingested d + on)) with du by lia.
      reflexivity.
  - intros Hs.
    unfold at_time, Dose.prog_value, Dose.current_period, Dose.status, bind, now, ret.
    cbn. unfold Dose.status_of, Clock.frozen.
    destruct (Period.contains (Dose.processing_time d) T); [ discriminate | ].
    destruct (Period.contains (Dose.active_time d) T); [ discriminate | ].
    reflexivity.
Qed.

Lemma prog_value_spec_witness :
  exists v : Q,
    at_time (minutes 5) (Dose.prog_value potato) = Ok v /\
    (v == inject_Z (Dose.ingested potato + minutes 15 - minutes 5)
          / inject_Z (minutes 15))%Q.
Proof.
  apply (proj1 (prog_value_spec "potato" DRY_HERB (Some 0) (Clock.frozen 0) 0%nat
                  (minutes 5))).
  - reflexivity.
  - vm_compute. discriminate.
Defined.

(** ** The table *)

Lemma list_remove_split (x : DoseRow.t) (l l' : list DoseRow.t) :
  list_remove x l = Ok l' ->
  exists l1 y l2,
    l = l1 ++ y :: l2 /\ l' = l1 ++ l2 /\ DoseRow.id y = DoseRow.id x.
Proof.
  revert l'. induction l as [ | a l IH ]; intros l' H; cbn in H.
  - discriminate.
  - destruct (Nat.eqb_spec (DoseRow.id a) (DoseRow.id x)) as [e | ne].
    + inversion H; subst. exists [], a, l'. auto.
    + destruct (list_remove x l) as [ r | ] eqn:E; [ | discriminate ].
      inversion H; subst.
      destruct (IH r eq_refl) as (l1 & y & l2 & -> & -> & Hy).
      exists (a :: l1), y, l2. auto.
Qed.

Lemma list_remove_Forall (P : DoseRow.t -> Prop) x l l' :
  list_remove x l = Ok l' -> Forall P l -> Forall P l'.
Proof.
  intros H HP. destruct (list_remove_split x l l' H) as (l1 & y & l2 & -> & -> & _).
  apply Forall_app in HP. destruct HP as [H1 H2]. inversion H2; subst.
  apply Forall_app; split; assumption.
Qed.

Lemma list_remove_NoDup x l l' :
  list_remove x l = Ok l' ->
  NoDup (map DoseRow.id l) -> NoDup (map DoseRow.id l').
Proof.
  intros H HN. destruct (list_remove_split x l l' H) as (l1 & y & l2 & -> & -> & _).
  rewrite map_app in *. cbn in HN. apply NoDup_remove_1 in HN. exact HN.
Qed.

Lemma remove_each_keeps (P : list DoseRow.t -> Prop) :
  (forall x l l', list_remove x l = Ok l' -> P l -> P l') ->
  forall to_remove l l', remove_each to_remove l = Ok l' -> P l -> P l'.
Proof.
  intros step. induction to_remove as [ | dr rest IH ]; intros l l' H HP; cbn in H.
  - inversion H; subst; exact HP.
  - destruct (list_remove dr l) as [ r | ] eqn:E; [ | discriminate ].
    apply (IH r l' H). apply (step dr l r E HP).
Qed.

(** A row other than those to remove stays at the head of the table. *)
Lemma remove_each_skip (x : DoseRow.t) :
  forall to_remove l r,
    ~ In (DoseRow.id x) (map DoseRow.id to_remove) ->
    remove_each to_remove l = Ok r ->
    remove_each to_remove (x :: l) = Ok (x :: r).
Proof.
  induction to_remove as [ | dr rest IH ]; intros l r Hx H; cbn in *.
  - inversion H; reflexivity.
  - destruct (Nat.eqb_spec (DoseRow.id x) (DoseRow.id dr)) as [e | ne].
    + exfalso. apply Hx. left. symmetry. exact e.
    + destruct (list_remove dr l) as [ l0 | ] eqn:E; [ | discriminate ].
      apply IH; [ | exact H ]. intros Hin. apply Hx. right. exact Hin.
Qed.

Lemma judged_incl doomed c k l :
  incl (DoseManager.judged doomed c k l) l.
Proof.
  revert k. induction l as [ | x rest IH ]; intros k; cbn.
  - apply incl_refl.
  - destruct (Bool.eqb _ doomed).
    + apply incl_cons; [ left; reflexivity | apply incl_tl, IH ].
    + apply incl_tl, IH.
Qed.

(** The filter pass reads the clock once per row and returns the rows it
    found expired. *)
Lemma filter_expired_judged (l : list DoseRow.t) (c : Clock.t) (k : nat) :
  filter_expired l c k = (DoseManager.judged true c k l, (k + List.length l)%nat).
Proof.
  revert k. induction l as [ | x rest IH ]; intros k; cbn.
  - unfold ret. f_equal. lia.
  - unfold bind, DoseRow.status, Dose.status, now, ret. cbn.
    rewrite IH. f_equal; [ | lia ].
    destruct (is_expired (Dose.status_of (DoseRow.dose x) (c k))); reflexivity.
Qed.

(** Removing the rows found expired leaves the others, in their order. *)
Lemma remove_each_judged (l : list DoseRow.t) (c : Clock.t) (k : nat) :
  NoDup (map DoseRow.id l) ->
  remove_each (DoseManager.judged true c k l) l = Ok (DoseManager.survivors c k l).
Proof.
  unfold DoseManager.survivors.
  revert k. induction l as [ | x rest IH ]; intros k HN; cbn.
  - reflexivity.
  - inversion HN as [ | ? ? Hx HN' ]; subst.
    destruct (is_expired (Dose.status_of (DoseRow.dose x) (c k))); cbn.
    + rewrite Nat.eqb_refl. apply IH. exact HN'.
    + apply remove_each_skip; [ | apply IH; exact HN' ].
      intros Hin. apply Hx. apply in_map_iff in Hin.
      destruct Hin as (y & Hy & Hin). apply in_map_iff. exists y.
      split; [ exact Hy | ]. apply (judged_incl true c (S k) rest). exact Hin.
Qed.

Lemma survivors_frozen (T : Z) (k : nat) (l : list DoseRow.t) :
  DoseManager.survivors (Clock.frozen T) k l =
  filter (fun r => negb (is_expired (at_time T (DoseRow.status r)))) l.
Proof.
  unfold DoseManager.survivors.
  revert k. induction l as [ | x rest IH ]; intros k.
  - reflexivity.
  - cbn [DoseManager.judged filter]. rewrite IH.
    change (at_time T (DoseRow.status x)) with (Dose.status_of (DoseRow.dose x) T).
    change (Clock.frozen T k) with T.
    destruct (is_expired (Dose.status_of (DoseRow.dose x) T)); reflexivity.
Qed.

(** What every reachable table satisfies: rows are distinct objects, their
    identities were handed out by [add_dose], and their doses have the
    windows of [new]. *)
Lemma reachable_invariant (s : DoseManager.t) :
  DoseManager.reachable s ->
  DoseManager.unique_rows s /\
  DoseManager.ids_allocated s /\
  DoseManager.doses_contiguous s.
Proof.
  unfold DoseManager.unique_rows, DoseManager.ids_allocated,
    DoseManager.doses_contiguous.
  induction 1 as [ | s strain method ingested c k _ (IHu & IHa & IHc)
                   | s row s' _ (IHu & IHa & IHc) Hdel
                   | s row c k _ (IHu & IHa & IHc) Hin
                   | s s' c k _ (IHu & IHa & IHc) Hclr ].
  - cbn. repeat split; constructor.
  - destruct ingested as [ dt | ]; cbn; rewrite ?map_app; cbn.
    all: repeat split.
    all: try (apply Forall_app; split;
              [ | constructor; [ | constructor ] ]).
    all: try (eapply Forall_impl; [ | exact IHa ]; cbn; intros; lia).
    all: try exact IHc.
    all: try (cbn; lia).
    all: try (unfold Dose.contiguous; cbn; repeat split; lia).
    all: apply NoDup_app; repeat split; try exact IHu;
      try (constructor; [ intros [] | constructor ]).
    all: intros a Ha [ <- | [] ]; apply in_map_iff in Ha;
      destruct Ha as (r & Hr & Hin);
      rewrite Forall_forall in IHa; specialize (IHa r Hin); lia.
  - unfold DoseManager.delete_dose in Hdel.
    destruct (list_remove row (DoseManager.rows s)) as [ l | ] eqn:E;
      [ | discriminate ].
    inversion Hdel; subst; cbn. repeat split.
    + exact (list_remove_NoDup _ _ _ E IHu).
    + exact (list_remove_Forall _ _ _ _ E IHa).
    + exact (list_remove_Forall _ _ _ _ E IHc).
  - cbn. repeat split.
    + rewrite map_map.
      rewrite (map_ext _ DoseRow.id); [ exact IHu | ].
      intros r. destruct (Nat.eqb _ _); reflexivity.
    + apply Forall_map. eapply Forall_impl; [ | exact IHa ].
      intros r Hr. destruct (Nat.eqb _ _); exact Hr.
    + apply Forall_map. eapply Forall_impl; [ | exact IHc ].
      intros r Hr. destruct (Nat.eqb _ _); [ | exact Hr ].
      cbn. unfold Dose.contiguous; cbn. repeat split; lia.
  - unfold DoseManager.clear_expired, bind, ret in Hclr.
    destruct (filter_expired (DoseManager.rows s) c k) as [to_remove k'].
    cbn in Hclr.
    destruct (remove_each to_remove (DoseManager.rows s)) as [ l | ] eqn:E;
      [ | discriminate ].
    inversion Hclr; subst; cbn. repeat split.
    + revert IHu. apply (remove_each_keeps (fun l => NoDup (map DoseRow.id l))
                           list_remove_NoDup _ _ _ E).
    + revert IHa. apply (remove_each_keeps _ (list_remove_Forall _) _ _ _ E).
    + revert IHc. apply (remove_each_keeps _ (list_remove_Forall _) _ _ _ E).
Qed.

(** C7.  [new] and [now_from_this] lay the processing window from the
    ingestion instant to ingestion + onset and the active window from
    there to ingestion + onset + duration, and every dose in a table the
    manager can reach has its windows so. *)
Theorem windows_contiguous :
  (forall strain method ingested c k,
      Dose.contiguous (fst (Dose.new strain method ingested c k))) /\
  (forall d c k, Dose.contiguous (fst (Dose.now_from_this d c k))) /\
  (forall s, DoseManager.reachable s -> DoseManager.doses_contiguous s).
Proof.
  split; [ | split ].
  - intros. apply new_contiguous.
  - intros. apply new_contiguous.
  - intros s H. apply (reachable_invariant s H).
Qed.

Lemma windows_contiguous_witness : DoseManager.doses_contiguous two_rows.
Proof.
  apply (proj2 (proj2 windows_contiguous)).
  apply DoseManager.reach_add. apply DoseManager.reach_add.
  apply DoseManager.reach_init.
Defined.

(** A pass of the poll loop over a row raises nothing either. *)
Lemma update_never_raises (row : DoseRow.t) (c : Clock.t) (k : nat) :
  exists shown : Display, fst (DoseRow.update row c k) = Ok shown.
Proof.
  unfold DoseRow.update, bind.
  destruct (Dose.status (DoseRow.dose row) c k) as [ds k1].
  destruct (Dose.time_left (DoseRow.dose row) c k1) as [tl k2].
  destruct (prog_value_never_raises (DoseRow.dose row) c k2) as (v & Hv).
  destruct (Dose.prog_value (DoseRow.dose row) c k2) as [pv k3].
  cbn in Hv. subst pv. eexists. reflexivity.
Qed.

(** ** Clearing the expired rows *)

(** C2, as the code has it.  [clear_expired] never raises on a table of
    distinct rows; it reads the clock once for each row, judges the row at
    place [i] at the [i]-th of these readings, and removes exactly the rows
    judged expired, the others keeping their order.  When the clock does
    not advance during the call, these are the rows expired at that
    instant. *)
Theorem clear_expired_spec (self : DoseManager.t) (c : Clock.t) (k : nat) :
  DoseManager.unique_rows self ->
  DoseManager.clear_expired self c k =
    (Ok (DoseManager.set_rows self
           (DoseManager.survivors c k (DoseManager.rows self))),
     (k + List.length (DoseManager.rows self))%nat) /\
  (forall T : Z,
      fst (DoseManager.clear_expired self (Clock.frozen T) k) =
      Ok (DoseManager.set_rows self
            (filter (fun r => negb (is_expired (at_time T (DoseRow.status r))))
                    (DoseManager.rows self)))).
Proof.
  intros HN.
  assert (H : forall c0,
             DoseManager.clear_expired self c0 k =
             (Ok (DoseManager.set_rows self
                    (DoseManager.survivors c0 k (DoseManager.rows self))),
              (k + List.length (DoseManager.rows self))%nat)).
  { intros c0. unfold DoseManager.clear_expired, bind, ret.
    rewrite filter_expired_judged.
    rewrite (remove_each_judged _ c0 k HN). reflexivity. }
  split; [ apply H | ].
  intros T. rewrite H. cbn [fst]. rewrite survivors_frozen. reflexivity.
Qed.

Lemma clear_expired_spec_witness :
  fst (DoseManager.clear_expired two_rows (Clock.frozen (seconds 31)) 0%nat)
  = Ok (DoseManager.set_rows two_rows []).
Proof.
  refine (proj2 (clear_expired_spec two_rows (Clock.frozen 0) 0%nat _) (seconds 31)).
  unfold DoseManager.unique_rows. cbn.
  constructor; [ cbn; intros [ H | [] ]; discriminate | ].
  constructor; [ intros [] | constructor ].
Defined.

(** C2 as stated fails when the clock advances during the call: of two
    equal doses, both active at the instant of the call, the second is
    removed because it is judged at a later reading. *)
Lemma clear_expired_judges_rows_at_different_instants :
  let c := Clock.steps (seconds 29) (seconds 31) in
  Forall (fun r => at_time (c 0%nat) (DoseRow.status r) = active)
         (DoseManager.rows two_rows) /\
  fst (DoseManager.clear_expired two_rows c 0%nat)
  = Ok (DoseManager.set_rows two_rows
          [DoseRow.mk 0 (DoseRow.dose (hd (DoseRow.mk 0 potato)
                                          (DoseManager.rows two_rows)))]) /\
  fst (DoseManager.clear_expired two_rows c 0%nat)
  <> Ok (DoseManager.set_rows two_rows
           (filter (fun r => negb (is_expired (at_time (c 0%nat) (DoseRow.status r))))
                   (DoseManager.rows two_rows))).
Proof.
  cbn zeta. split; [ | split ].
  - repeat constructor.
  - reflexivity.
  - vm_compute. discriminate.
Qed.

(** ** The poll loop *)

(** C3, as the code has it.  The loop hands [update_frequency] minus the
    measured time of the pass to [time.sleep], as it is; when the pass
    took no longer than [update_frequency] this is not negative and the
    turn raises nothing. *)
Theorem updater_turn_spec (start stop : Q) :
  (stop - start <= DoseManager.update_frequency)%Q ->
  DoseManager.updater_turn start stop
    = Ok (DoseManager.update_frequency - (stop - start))%Q /\
  (0 <= DoseManager.update_frequency - (stop - start))%Q.
Proof.
  intros H.
  assert (H0 : (0 <= DoseManager.update_frequency - (stop - start))%Q) by lra.
  split; [ | exact H0 ].
  unfold DoseManager.updater_turn, DoseManager.time_sleep, DoseManager.sleep_length.
  apply Qle_bool_iff in H0. rewrite H0. reflexivity.
Qed.

Lemma updater_turn_spec_witness :
  DoseManager.updater_turn 0 (1 # 10) = Ok (DoseManager.update_frequency - ((1 # 10) - 0))%Q.
Proof.
  apply (updater_turn_spec 0 (1 # 10)).
  vm_compute. discriminate.
Defined.

(** C3 as stated fails: after a pass of half a second the sleep length
    is negative, not clamped, and [time.sleep] raises; the loop ends
    there. *)
Lemma updater_turn_raises_after_slow_pass :
  (DoseManager.sleep_length 0 (1 # 2) < 0)%Q /\
  DoseManager.updater_turn 0 (1 # 2) = Raise ValueError /\
  DoseManager._updater [(0, 1 # 10); (0, 1 # 2); (0, 1 # 10)]%Q = Raise ValueError.
Proof. repeat split. Qed.

(** * Further properties of the code *)

(** ** Status and current period *)

(** X1.  For a dose of [new] with non-negative onset and duration the
    status is [processing] from the ingestion to ingestion + onset, both
    included, [active] after that up to ingestion + onset + duration,
    included, and [expired] before the ingestion and after the end. *)
Theorem status_by_instant
    (strain : string) (method : IngestionMethod.t) (ingested : option Z)
    (c : Clock.t) (k : nat) (T : Z) :
  0 <= IngestionMethod.onset method ->
  0 <= IngestionMethod.duration method ->
  let d := fst (Dose.new strain method ingested c k) in
  let i := Dose.ingested d in
  let on := IngestionMethod.onset method in
  let du := IngestionMethod.duration method in
  (at_time T (Dose.status d) = processing <-> i <= T <= i + on) /\
  (at_time T (Dose.status d) = active <-> i + on < T <= i + on + du) /\
  (at_time T (Dose.status d) = expired <-> T < i \/ i + on + du < T).
Proof.
  intros Hon Hdu d i on du. rewrite status_at_time.
  pose proof (new_contiguous strain method ingested c k) as Hc. fold d in Hc.
  rewrite (status_of_contiguous d T Hc). cbn zeta.
  assert (Hm : Dose.method d = method) by apply new_fields.
  rewrite Hm. fold i on du.
  split; [ | split ]; split; intros H; by_windows.
Qed.

Lemma status_by_instant_witness :
  at_time (minutes 15) (Dose.status potato) = processing
  <-> Dose.ingested potato <= minutes 15 <= Dose.ingested potato + minutes 15.
Proof.
  apply (status_by_instant "potato" DRY_HERB (Some 0) (Clock.frozen 0) 0%nat
           (minutes 15)).
  - vm_compute. discriminate.
  - vm_compute. discriminate.
Defined.

Lemma current_period_in (d : Dose.t) (c : Clock.t) (k : nat) (p : Period.t) :
  fst (Dose.current_period d c k) = Some p ->
  Period.contains p (c k) = true /\
  (p = Dose.processing_time d \/ p = Dose.active_time d).
Proof.
  unfold Dose.current_period, Dose.status, bind, now, ret; cbn.
  unfold Dose.status_of.
  destruct (Period.contains (Dose.processing_time d) (c k)) eqn:E1;
    [ | destruct (Period.contains (Dose.active_time d) (c k)) eqn:E2 ].
  all: intros Hp; try discriminate Hp.
  all: inversion Hp; subst; split; [ assumption | auto ].
Qed.

(** X2.  Whatever the dose and the clock, a period returned by
    [current_period] is one of the two windows of the dose and contains
    the reading it was chosen at; none is returned exactly when the status
    at that reading is [expired]. *)
Theorem current_period_holds_reading (d : Dose.t) (c : Clock.t) (k : nat) :
  (forall p : Period.t,
      fst (Dose.current_period d c k) = Some p ->
      Period.contains p (c k) = true /\
      (p = Dose.processing_time d \/ p = Dose.active_time d)) /\
  (fst (Dose.current_period d c k) = None <->
   Dose.status_of d (c k) = expired).
Proof.
  split.
  - intros p Hp. exact (current_period_in d c k p Hp).
  - unfold Dose.current_period, Dose.status, bind, now, ret; cbn.
    destruct (Dose.status_of d (c k)); split; intros H;
      try discriminate; reflexivity.
Qed.

Lemma current_period_holds_reading_witness :
  Period.contains (Dose.processing_time potato) (minutes 5) = true /\
  (Dose.processing_time potato = Dose.processing_time potato \/
   Dose.processing_time potato = Dose.active_time potato).
Proof.
  apply (proj1 (current_period_holds_reading potato (Clock.frozen (minutes 5)) 0%nat)).
  reflexivity.
Defined.

(** ** Progress and time left *)

Lemma ratio_nonneg (a b : Z) :
  0 <= a -> 0 < b -> (0 <= inject_Z a / inject_Z b)%Q.
Proof.
  intros Ha Hb. apply Qle_shift_div_l.
  - rewrite Zlt_Qlt in Hb. exact Hb.
  - rewrite Qmult_0_l. rewrite Zle_Qle in Ha. exact Ha.
Qed.

Lemma ratio_le_1 (a b : Z) :
  a <= b -> 0 < b -> (inject_Z a / inject_Z b <= 1)%Q.
Proof.
  intros Ha Hb. apply Qle_shift_div_r.
  - rewrite Zlt_Qlt in Hb. exact Hb.
  - rewrite Qmult_1_l. rewrite Zle_Qle in Ha. exact Ha.
Qed.

Lemma ratio_le (a a' b : Z) :
  a <= a' -> 0 < b -> (inject_Z a / inject_Z b <= inject_Z a' / inject_Z b)%Q.
Proof.
  intros Ha Hb. unfold Qdiv. apply Qmult_le_compat_r.
  - rewrite Zle_Qle in Ha. exact Ha.
  - apply Qinv_le_0_compat. apply Qlt_le_weak.
    rewrite Zlt_Qlt in Hb. exact Hb.
Qed.

Lemma prog_value_unfold (d : Dose.t) (c : Clock.t) (k : nat) :
  fst (Dose.prog_value d c k) =
  match fst (Dose.current_period d c k) with
  | Some p =>
      if Period.truthy p
      then float_div (Period.total_seconds (Period.absolute (Period.end_ p) (c (S k))))
                     (Period.total_seconds p)
      else Ok 1%Q
  | None => Ok 1%Q
  end.
Proof.
  unfold Dose.prog_value, Dose.current_period, Dose.status, bind, now, ret; cbn.
  destruct (Dose.status_of d (c k)); cbn; try reflexivity.
  - destruct (Period.truthy (Dose.processing_time d)); reflexivity.
  - destruct (Period.truthy (Dose.active_time d)); reflexivity.
Qed.

Lemma contains_bounds (p : Period.t) (n : Z) :
  Period.contains p n = true -> Period.start p <= n <= Period.end_ p.
Proof.
  unfold Period.contains. intros H. apply andb_true_iff in H.
  destruct H as [H1 H2]. apply Z.leb_le in H1, H2. lia.
Qed.

Lemma prog_value_range (d : Dose.t) (c : Clock.t) (k : nat) (v : Q) :
  fst (Dose.prog_value d c k) = Ok v ->
  (0 <= v)%Q /\ (c (S k) = c k -> (v <= 1)%Q).
Proof.
  intros Hv. rewrite prog_value_unfold in Hv.
  destruct (fst (Dose.current_period d c k)) as [ p | ] eqn:Ecp;
    [ | inversion Hv; subst; split; [ discriminate | intros _; apply Qle_refl ] ].
  destruct (Period.truthy p) eqn:Et;
    [ | inversion Hv; subst; split; [ discriminate | intros _; apply Qle_refl ] ].
  apply current_period_in in Ecp.
  destruct Ecp as [Hin _]. apply contains_bounds in Hin.
  apply truthy_delta in Et.
  unfold Period.total_seconds in Hv. rewrite absolute_delta in Hv.
  destruct (float_div_seconds (Z.abs (c (S k) - Period.end_ p))
              (Period.delta p) Et) as (v' & Hv' & Hq).
  rewrite Hv' in Hv. inversion Hv; subst v'.
  unfold Period.delta in *.
  split; [ | intros Hsame ]; rewrite Hq.
  - apply ratio_nonneg; lia.
  - apply ratio_le_1; lia.
Qed.

(** X3.  The value of [prog_value] is never negative, however the clock
    moves between its readings, and it is at most 1 when the clock stands
    still during the call. *)
Theorem prog_value_bounds :
  (forall (d : Dose.t) (c : Clock.t) (k : nat) (v : Q),
      fst (Dose.prog_value d c k) = Ok v -> (0 <= v)%Q) /\
  (forall (d : Dose.t) (T : Z) (v : Q),
      at_time T (Dose.prog_value d) = Ok v -> (v <= 1)%Q).
Proof.
  split.
  - intros d c k v Hv. apply (prog_value_range d c k v Hv).
  - intros d T v Hv. apply (prog_value_range d (Clock.frozen T) 0%nat v Hv).
    reflexivity.
Qed.

Lemma prog_value_bounds_witness :
  (0 <= 600000000000000 # 900000000000000)%Q /\
  (600000000000000 # 900000000000000 <= 1)%Q.
Proof.
  split.
  - apply (proj1 prog_value_bounds potato (Clock.frozen (minutes 5)) 0%nat).
    reflexivity.
  - apply (proj2 prog_value_bounds potato (minutes 5)).
    reflexivity.
Defined.

(** X4.  While a dose stays in one window, [prog_value] does not grow as
    time passes: read at two instants of the same current period, the
    later value is not the larger. *)
Theorem prog_value_decreasing
    (d : Dose.t) (T1 T2 : Z) (p : Period.t) (v1 v2 : Q) :
  T1 <= T2 ->
  at_time T1 (Dose.current_period d) = Some p ->
  at_time T2 (Dose.current_period d) = Some p ->
  at_time T1 (Dose.prog_value d) = Ok v1 ->
  at_time T2 (Dose.prog_value d) = Ok v2 ->
  (v2 <= v1)%Q.
Proof.
  intros HT H1 H2 Hv1 Hv2.
  pose proof (proj1 (current_period_in d (Clock.frozen T1) 0%nat p H1)) as Hin1.
  pose proof (proj1 (current_period_in d (Clock.frozen T2) 0%nat p H2)) as Hin2.
  change (Clock.frozen T1 0%nat) with T1 in Hin1.
  change (Clock.frozen T2 0%nat) with T2 in Hin2.
  destruct (Z.eq_dec (Period.delta p) 0) as [ Hz | Hnz ].
  - unfold at_time in *. rewrite prog_value_unfold in Hv1, Hv2.
    rewrite H1 in Hv1. rewrite H2 in Hv2.
    assert (Et : Period.truthy p = false).
    { unfold Period.truthy. rewrite Hz. reflexivity. }
    rewrite Et in Hv1, Hv2. inversion Hv1; inversion Hv2; subst. apply Qle_refl.
  - destruct (prog_value_in_window d T1 p H1 Hin1 Hnz) as (w1 & Hw1 & Hq1).
    destruct (prog_value_in_window d T2 p H2 Hin2 Hnz) as (w2 & Hw2 & Hq2).
    rewrite Hw1 in Hv1. rewrite Hw2 in Hv2.
    inversion Hv1; inversion Hv2; subst.
    rewrite Hq1, Hq2.
    apply contains_bounds in Hin1. unfold Period.delta in *.
    apply ratio_le; lia.
Qed.

Lemma prog_value_decreasing_witness :
  (300000000000000 # 900000000000000 <= 600000000000000 # 900000000000000)%Q.
Proof.
  apply (prog_value_decreasing potato (minutes 5) (minutes 10)
           (Dose.processing_time potato)).
  - vm_compute. discriminate.
  - reflexivity.
  - reflexivity.
  - reflexivity.
  - reflexivity.
Defined.

Lemma current_period_processing (d : Dose.t) (T : Z) :
  Period.contains (Dose.processing_time d) T = true ->
  at_time T (Dose.current_period d) = Some (Dose.processing_time d).
Proof.
  intros H. unfold at_time, Dose.current_period, Dose.status, bind, now, ret; cbn.
  unfold Dose.status_of, Clock.frozen. rewrite H. reflexivity.
Qed.

(** X5.  During the processing window of a dose of [new] with a positive
    onset, [prog_value] runs from 1, at the ingestion instant, down to 0, at
    ingestion + onset, which still belongs to the window. *)
Theorem prog_value_over_processing
    (strain : string) (method : IngestionMethod.t) (ingested : option Z)
    (c : Clock.t) (k : nat) :
  0 < IngestionMethod.onset method ->
  let d := fst (Dose.new strain method ingested c k) in
  let i := Dose.ingested d in
  exists v1 v0 : Q,
    at_time i (Dose.prog_value d) = Ok v1 /\ (v1 == 1)%Q /\
    at_time (i + IngestionMethod.onset method) (Dose.prog_value d) = Ok v0 /\
    (v0 == 0)%Q.
Proof.
  intros Hon d i.
  assert (Hp : Dose.processing_time d
               = Period.mk i (i + IngestionMethod.onset method))
    by (destruct ingested; reflexivity).
  assert (Hlen : Period.delta (Dose.processing_time d) <> 0)
    by (rewrite Hp; unfold Period.delta; cbn; lia).
  assert (Hin1 : Period.contains (Dose.processing_time d) i = true).
  { rewrite Hp. unfold Period.contains; cbn.
    apply andb_true_iff; split; apply Z.leb_le; lia. }
  assert (Hin0 : Period.contains (Dose.processing_time d)
                   (i + IngestionMethod.onset method) = true).
  { rewrite Hp. unfold Period.contains; cbn.
    apply andb_true_iff; split; apply Z.leb_le; lia. }
  destruct (prog_value_in_window d i _ (current_period_processing d i Hin1) Hin1 Hlen)
    as (v1 & Hv1 & Hq1).
  destruct (prog_value_in_window d _ _ (current_period_processing d _ Hin0) Hin0 Hlen)
    as (v0 & Hv0 & Hq0).
  exists v1, v0. repeat split; try assumption.
  - rewrite Hq1, Hp. unfold Period.delta; cbn.
    replace (i + IngestionMethod.onset method - i)
      with (IngestionMethod.onset method) by lia.
    apply Qmult_inv_r. intros E.
    unfold Qeq, inject_Z in E; cbn in E. lia.
  - rewrite Hq0, Hp. unfold Period.delta; cbn.
    replace (i + IngestionMethod.onset method - (i + IngestionMethod.onset method))
      with 0 by lia.
    unfold Qdiv. apply Qmult_0_l.
Qed.

Lemma prog_value_over_processing_witness :
  exists v1 v0 : Q,
    at_time 0 (Dose.prog_value potato) = Ok v1 /\ (v1 == 1)%Q /\
    at_time (0 + minutes 15) (Dose.prog_value potato) = Ok v0 /\ (v0 == 0)%Q.
Proof.
  apply (prog_value_over_processing "potato" DRY_HERB (Some 0) (Clock.frozen 0) 0%nat).
  reflexivity.
Defined.

(** X6.  With the clock at [T], [time_left] of a dose of [new] is the
    words of the period from [T] to the end of the current window, and
    "Expired" when the status is [expired]; it is "Expired" too while the
    status is still [processing], when the onset is zero. *)
Theorem time_left_spec
    (strain : string) (method : IngestionMethod.t) (ingested : option Z)
    (c : Clock.t) (k : nat) (T : Z) :
  let d := fst (Dose.new strain method ingested c k) in
  let i := Dose.ingested d in
  let on := IngestionMethod.onset method in
  let du := IngestionMethod.duration method in
  (at_time T (Dose.status d) = processing -> on <> 0 ->
   at_time T (Dose.time_left d) = InWords (Period.mk T (i + on))) /\
  (at_time T (Dose.status d) = active -> du <> 0 ->
   at_time T (Dose.time_left d) = InWords (Period.mk T (i + on + du))) /\
  (at_time T (Dose.status d) = expired ->
   at_time T (Dose.time_left d) = ExpiredText) /\
  (at_time T (Dose.status d) = processing -> on = 0 ->
   at_time T (Dose.time_left d) = ExpiredText).
Proof.
  intros d i on du.
  assert (Hp : Dose.processing_time d = Period.mk i (i + on))
    by (destruct ingested; reflexivity).
  assert (Ha : Dose.active_time d = Period.mk (i + on) (i + on + du))
    by (destruct ingested; reflexivity).
  assert (Habs : forall e, T <= e -> Period.absolute e T = Period.mk T e).
  { intros e He. unfold Period.absolute.
    destruct (Z.ltb_spec T e); [ reflexivity | ].
    replace e with T by lia. reflexivity. }
  unfold at_time, Dose.time_left, Dose.current_period, Dose.status, bind, now, ret.
  cbn. unfold Dose.status_of, Clock.frozen, DateTime_diff, bind, now, ret.
  rewrite Hp, Ha. unfold Period.contains, Period.truthy, Period.delta. cbn.
  repeat split.
  - intros Hs Hon.
    destruct ((i <=? T) && (T <=? i + on)) eqn:E1;
      [ | destruct ((i + on <=? T) && (T <=? i + on + du)); discriminate ].
    cbn. apply andb_true_iff in E1. destruct E1 as [_ E1]. apply Z.leb_le in E1.
    destruct (Z.eqb_spec (i + on - i) 0); [ lia | ]. cbn.
    rewrite (Habs _ E1). reflexivity.
  - intros Hs Hdu.
    destruct ((i <=? T) && (T <=? i + on)) eqn:E1; [ discriminate | ].
    destruct ((i + on <=? T) && (T <=? i + on + du)) eqn:E2; [ | discriminate ].
    cbn. apply andb_true_iff in E2. destruct E2 as [_ E2]. apply Z.leb_le in E2.
    destruct (Z.eqb_spec (i + on + du - (i + on)) 0); [ lia | ]. cbn.
    rewrite (Habs _ E2). reflexivity.
  - intros Hs.
    destruct ((i <=? T) && (T <=? i + on)); [ discriminate | ].
    destruct ((i + on <=? T) && (T <=? i + on + du)); [ discriminate | ].
    reflexivity.
  - intros Hs Hon.
    destruct ((i <=? T) && (T <=? i + on)) eqn:E1;
      [ | destruct ((i + on <=? T) && (T <=? i + on + du)); discriminate ].
    cbn. destruct (Z.eqb_spec (i + on - i) 0); [ reflexivity | lia ].
Qed.

Lemma time_left_spec_witness :
  at_time (minutes 5) (Dose.time_left potato)
  = InWords (Period.mk (minutes 5) (Dose.ingested potato + minutes 15)).
Proof.
  apply (proj1 (time_left_spec "potato" DRY_HERB (Some 0) (Clock.frozen 0) 0%nat
                  (minutes 5))).
  - reflexivity.
  - vm_compute. discriminate.
Defined.

(** ** A row on the screen *)

Lemma time_left_reads (d : Dose.t) (c : Clock.t) (k : nat) :
  (S k <= snd (Dose.time_left d c k) <= S (S k))%nat.
Proof.
  unfold Dose.time_left, Dose.current_period, Dose.status, DateTime_diff,
    bind, now, ret; cbn.
  destruct (Dose.status_of d (c k)); cbn; try lia.
  - destruct (Period.truthy (Dose.processing_time d)); cbn; lia.
  - destruct (Period.truthy (Dose.active_time d)); cbn; lia.
Qed.

Lemma prog_value_reads (d : Dose.t) (c : Clock.t) (k : nat) :
  (S k <= snd (Dose.prog_value d c k) <= S (S k))%nat.
Proof.
  unfold Dose.prog_value, Dose.current_period, Dose.status, DateTime_diff,
    bind, now, ret; cbn.
  destruct (Dose.status_of d (c k)); cbn; try lia.
  - destruct (Period.truthy (Dose.processing_time d)); cbn; lia.
  - destruct (Period.truthy (Dose.active_time d)); cbn; lia.
Qed.

Lemma update_unfold (row : DoseRow.t) (c : Clock.t) (k : nat) :
  DoseRow.update row c k =
  let d := DoseRow.dose row in
  let ds := Dose.status_of d (c k) in
  let tl := Dose.time_left d c (S k) in
  let pv := Dose.prog_value d c (snd tl) in
  (match fst pv with
   | Raise e => Raise e
   | Ok v =>
       Ok (mkDisplay (DoseStatus_value ds) (fst tl) v
             (match ds with
              | processing => "Blue"
              | active => "green"
              | expired => "red"
              end))
   end, snd pv).
Proof.
  unfold DoseRow.update, bind.
  change (Dose.status (DoseRow.dose row) c k)
    with (Dose.status_of (DoseRow.dose row) (c k), S k).
  cbv beta iota zeta.
  destruct (Dose.time_left (DoseRow.dose row) c (S k)) as [tl k2]. cbn [fst snd].
  destruct (Dose.prog_value (DoseRow.dose row) c k2) as [pv k3]. reflexivity.
Qed.

(** X7.  [DoseRow.update] raises nothing, whatever the dose and the course
    of the clock.  It reads the clock three to five times; the status text
    and the colour come from the first reading (red exactly when that
    reading finds the dose expired), and the progress shown is not
    negative. *)
Theorem update_shows (row : DoseRow.t) (c : Clock.t) (k : nat) :
  exists shown : Display,
    fst (DoseRow.update row c k) = Ok shown /\
    status_text shown = DoseStatus_value (Dose.status_of (DoseRow.dose row) (c k)) /\
    (color shown = "red"%string <->
     Dose.status_of (DoseRow.dose row) (c k) = expired) /\
    (0 <= progress shown)%Q /\
    (k + 3 <= snd (DoseRow.update row c k) <= k + 5)%nat.
Proof.
  rewrite update_unfold. cbn [fst snd].
  pose proof (time_left_reads (DoseRow.dose row) c (S k)) as Htl.
  destruct (Dose.time_left (DoseRow.dose row) c (S k)) as [tl k2].
  cbn [fst snd] in *.
  pose proof (prog_value_reads (DoseRow.dose row) c k2) as Hpv.
  destruct (prog_value_never_raises (DoseRow.dose row) c k2) as (v & Hv).
  pose proof (prog_value_range (DoseRow.dose row) c k2 v Hv) as [Hv0 _].
  destruct (Dose.prog_value (DoseRow.dose row) c k2) as [pv k3].
  cbn [fst snd] in *. subst pv.
  eexists. split; [ reflexivity | ]. cbn.
  repeat split; try assumption; try lia.
  - destruct (Dose.status_of (DoseRow.dose row) (c k)); intros H;
      try reflexivity; discriminate.
  - destruct (Dose.status_of (DoseRow.dose row) (c k)); intros H;
      try reflexivity; discriminate.
Qed.

(** ** Deleting, adding and resetting rows *)

Lemma list_remove_absent (x : DoseRow.t) (l : list DoseRow.t) :
  ~ In (DoseRow.id x) (map DoseRow.id l) -> list_remove x l = Raise ValueError.
Proof.
  induction l as [ | y l IH ]; intros Hx; cbn in *.
  - reflexivity.
  - destruct (Nat.eqb_spec (DoseRow.id y) (DoseRow.id x)) as [ e | ne ].
    + exfalso. apply Hx. left. exact e.
    + rewrite IH; [ reflexivity | ]. intros Hin. apply Hx. right. exact Hin.
Qed.

Lemma filter_other_ids (x : DoseRow.t) (l : list DoseRow.t) :
  ~ In (DoseRow.id x) (map DoseRow.id l) ->
  filter (fun r => negb (Nat.eqb (DoseRow.id r) (DoseRow.id x))) l = l.
Proof.
  induction l as [ | y l IH ]; intros Hx; cbn in *.
  - reflexivity.
  - destruct (Nat.eqb_spec (DoseRow.id y) (DoseRow.id x)) as [ e | ne ]; cbn.
    + exfalso. apply Hx. left. exact e.
    + rewrite IH; [ reflexivity | ]. intros Hin. apply Hx. right. exact Hin.
Qed.

Lemma list_remove_filter (x : DoseRow.t) (l : list DoseRow.t) :
  NoDup (map DoseRow.id l) ->
  In (DoseRow.id x) (map DoseRow.id l) ->
  list_remove x l
  = Ok (filter (fun r => negb (Nat.eqb (DoseRow.id r) (DoseRow.id x))) l).
Proof.
  induction l as [ | y l IH ]; intros HN Hx; cbn in *.
  - contradiction.
  - inversion HN as [ | ? ? Hy HN' ]; subst.
    destruct (Nat.eqb_spec (DoseRow.id y) (DoseRow.id x)) as [ e | ne ]; cbn.
    + rewrite filter_other_ids; [ reflexivity | ]. rewrite <- e. exact Hy.
    + destruct Hx as [ e | Hx ]; [ contradiction | ].
      rewrite (IH HN' Hx). reflexivity.
Qed.

Lemma list_remove_last (x y : DoseRow.t) (l : list DoseRow.t) :
  DoseRow.id y = DoseRow.id x ->
  ~ In (DoseRow.id x) (map DoseRow.id l) -> list_remove x (l ++ [y]) = Ok l.
Proof.
  intros Hy. induction l as [ | z l IH ]; intros Hx; cbn in *.
  - rewrite Hy, Nat.eqb_refl. reflexivity.
  - destruct (Nat.eqb_spec (DoseRow.id z) (DoseRow.id x)) as [ e | ne ].
    + exfalso. apply Hx. left. exact e.
    + rewrite IH; [ reflexivity | ]. intros Hin. apply Hx. right. exact Hin.
Qed.

(** X8.  [delete_dose] raises [ValueError] when no row of the table is the
    row given, and otherwise succeeds and leaves one row fewer. *)
Theorem delete_dose_absent_or_present (row : DoseRow.t) (s : DoseManager.t) :
  (~ In (DoseRow.id row) (map DoseRow.id (DoseManager.rows s)) ->
   DoseManager.delete_dose row s = Raise ValueError) /\
  (In (DoseRow.id row) (map DoseRow.id (DoseManager.rows s)) ->
   exists s' : DoseManager.t,
     DoseManager.delete_dose row s = Ok s' /\
     S (List.length (DoseManager.rows s')) = List.length (DoseManager.rows s)).
Proof.
  unfold DoseManager.delete_dose. split.
  - intros H. rewrite (list_remove_absent row _ H). reflexivity.
  - intros H.
    destruct (list_remove row (DoseManager.rows s)) as [ l | e ] eqn:E.
    + eexists. split; [ reflexivity | ]. cbn.
      destruct (list_remove_split _ _ _ E) as (l1 & y & l2 & -> & -> & _).
      rewrite !length_app. cbn. lia.
    + exfalso. revert H E. generalize (DoseManager.rows s).
      induction l as [ | y l IH ]; cbn; intros H E; [ contradiction | ].
      destruct (Nat.eqb_spec (DoseRow.id y) (DoseRow.id row)) as [ e' | ne ];
        [ discriminate | ].
      destruct H as [ H | H ]; [ contradiction | ].
      destruct (list_remove row l) eqn:E'; [ discriminate | ].
      apply (IH H). exact E.
Qed.

Lemma delete_dose_absent_or_present_witness :
  DoseManager.delete_dose (DoseRow.mk 7 potato) two_rows = Raise ValueError.
Proof.
  apply (proj1 (delete_dose_absent_or_present (DoseRow.mk 7 potato) two_rows)).
  cbn. intros [ H | [ H | [] ] ]; discriminate.
Defined.

(** X9.  In a table the manager can reach, [delete_dose] removes the row
    given and no other: the rows left are those of another identity, in
    their order. *)
Theorem delete_dose_removes_that_row (row : DoseRow.t) (s : DoseManager.t) :
  DoseManager.reachable s ->
  In (DoseRow.id row) (map DoseRow.id (DoseManager.rows s)) ->
  DoseManager.delete_dose row s
  = Ok (DoseManager.set_rows s
          (filter (fun r => negb (Nat.eqb (DoseRow.id r) (DoseRow.id row)))
                  (DoseManager.rows s))).
Proof.
  intros Hr Hin. destruct (reachable_invariant s Hr) as (Hu & _ & _).
  unfold DoseManager.delete_dose.
  rewrite (list_remove_filter row _ Hu Hin). reflexivity.
Qed.

Lemma delete_dose_removes_that_row_witness :
  DoseManager.delete_dose (DoseRow.mk 0 potato) two_rows
  = Ok (DoseManager.set_rows two_rows
          (filter (fun r => negb (Nat.eqb (DoseRow.id r) 0))
                  (DoseManager.rows two_rows))).
Proof.
  apply (delete_dose_removes_that_row (DoseRow.mk 0 potato) two_rows).
  - apply DoseManager.reach_add. apply DoseManager.reach_add.
    apply DoseManager.reach_init.
  - cbn. left. reflexivity.
Defined.

(** X10.  Deleting the row that [add_dose] has just appended gives back
    the rows there were before, for every table the manager can reach. *)
Theorem add_then_delete
    (strain : string) (method : IngestionMethod.t) (ingested : option Z)
    (s : DoseManager.t) (c : Clock.t) (k : nat) (d : Dose.t) :
  DoseManager.reachable s ->
  let s1 := fst (DoseManager.add_dose strain method ingested s c k) in
  exists s2 : DoseManager.t,
    DoseManager.delete_dose (DoseRow.mk (DoseManager.next_id s) d) s1 = Ok s2 /\
    DoseManager.rows s2 = DoseManager.rows s.
Proof.
  intros Hr s1. destruct (reachable_invariant s Hr) as (_ & Ha & _).
  assert (Hfresh : ~ In (DoseManager.next_id s)
                       (map DoseRow.id (DoseManager.rows s))).
  { intros Hin. apply in_map_iff in Hin. destruct Hin as (r & Hid & Hin).
    unfold DoseManager.ids_allocated in Ha. rewrite Forall_forall in Ha.
    specialize (Ha r Hin). lia. }
  assert (Hrows : exists d0, DoseManager.rows s1
                   = DoseManager.rows s ++ [DoseRow.mk (DoseManager.next_id s) d0]).
  { unfold s1. destruct ingested; cbn; eexists; reflexivity. }
  destruct Hrows as (d0 & Hrows).
  unfold DoseManager.delete_dose. rewrite Hrows.
  assert (E : list_remove (DoseRow.mk (DoseManager.next_id s) d)
                (DoseManager.rows s ++ [DoseRow.mk (DoseManager.next_id s) d0])
              = Ok (DoseManager.rows s))
    by (apply list_remove_last; [ reflexivity | exact Hfresh ]).
  rewrite E. eexists. split; reflexivity.
Qed.

Lemma add_then_delete_witness :
  exists s2 : DoseManager.t,
    DoseManager.delete_dose (DoseRow.mk 2 potato)
      (fst (DoseManager.add_dose "potato" DRY_HERB None two_rows
              (Clock.frozen 0) 0%nat)) = Ok s2 /\
    DoseManager.rows s2 = DoseManager.rows two_rows.
Proof.
  apply (add_then_delete "potato" DRY_HERB None two_rows (Clock.frozen 0) 0%nat potato).
  apply DoseManager.reach_add. apply DoseManager.reach_add.
  apply DoseManager.reach_init.
Defined.

(** X11.  [reset_dose] keeps the rows, their identities and their order;
    a row of another identity is left as it is; the row reset keeps its
    strain and method and is ingested at the reading of the clock, where,
    for a non-negative onset, its status is [processing] again. *)
Theorem reset_dose_restarts (row : DoseRow.t) (s : DoseManager.t)
    (c : Clock.t) (k : nat) :
  let s' := fst (DoseManager.reset_dose row s c k) in
  map DoseRow.id (DoseManager.rows s') = map DoseRow.id (DoseManager.rows s) /\
  (forall (i : nat) (r : DoseRow.t),
      nth_error (DoseManager.rows s) i = Some r ->
      DoseRow.id r <> DoseRow.id row ->
      nth_error (DoseManager.rows s') i = Some r) /\
  (forall r : DoseRow.t,
      In r (DoseManager.rows s') ->
      DoseRow.id r = DoseRow.id row ->
      Dose.strain (DoseRow.dose r) = Dose.strain (DoseRow.dose row) /\
      Dose.method (DoseRow.dose r) = Dose.method (DoseRow.dose row) /\
      Dose.ingested (DoseRow.dose r) = c k /\
      (0 <= IngestionMethod.onset (Dose.method (DoseRow.dose row)) ->
       Dose.status_of (DoseRow.dose r) (c k) = processing)).
Proof.
  cbn. split; [ | split ].
  - rewrite map_map. apply map_ext. intros r.
    destruct (Nat.eqb _ _); reflexivity.
  - intros i r Hi Hne.
    rewrite (map_nth_error _ _ _ Hi).
    destruct (Nat.eqb_spec (DoseRow.id r) (DoseRow.id row)); [ contradiction | ].
    reflexivity.
  - intros r Hin Hid. apply in_map_iff in Hin.
    destruct Hin as (r0 & Hr0 & _).
    destruct (Nat.eqb_spec (DoseRow.id r0) (DoseRow.id row)) as [ e | ne ].
    + subst r. cbn. repeat split. intros Hon.
      unfold Dose.status_of, Period.contains. cbn.
      destruct (Z.leb_spec (c k) (c k)); [ | lia ].
      destruct (Z.leb_spec (c k)
                  (c k + IngestionMethod.onset (Dose.method (DoseRow.dose row))));
        [ reflexivity | lia ].
    + subst r0. contradiction.
Qed.

Lemma reset_dose_restarts_witness :
  nth_error (DoseManager.rows
               (fst (DoseManager.reset_dose (DoseRow.mk 0 potato) two_rows
                       (Clock.frozen (seconds 40)) 0%nat))) 1
  = nth_error (DoseManager.rows two_rows) 1.
Proof.
  apply (proj1 (proj2 (reset_dose_restarts (DoseRow.mk 0 potato) two_rows
                         (Clock.frozen (seconds 40)) 0%nat))).
  - reflexivity.
  - cbn. discriminate.
Defined.

(** X12.  In every table the manager can reach no row object occurs twice,
    and every identity in the table is one that [add_dose] has handed
    out. *)
Theorem reachable_rows_distinct (s : DoseManager.t) :
  DoseManager.reachable s ->
  DoseManager.unique_rows s /\ DoseManager.ids_allocated s.
Proof.
  intros Hr. destruct (reachable_invariant s Hr) as (Hu & Ha & _).
  split; [ exact Hu | exact Ha ].
Qed.

Lemma reachable_rows_distinct_witness :
  DoseManager.unique_rows two_rows /\ DoseManager.ids_allocated two_rows.
Proof.
  apply (reachable_rows_distinct two_rows).
  apply DoseManager.reach_add. apply DoseManager.reach_add.
  apply DoseManager.reach_init.
Defined.

(** ** Clearing twice *)

Lemma clear_expired_frozen (self : DoseManager.t) (T : Z) (k : nat) :
  DoseManager.unique_rows self ->
  fst (DoseManager.clear_expired self (Clock.frozen T) k) =
  Ok (DoseManager.set_rows self
        (filter (fun r => negb (is_expired (at_time T (DoseRow.status r))))
                (DoseManager.rows self))).
Proof.
  intros HN. unfold DoseManager.clear_expired, bind, ret.
  rewrite filter_expired_judged.
  rewrite (remove_each_judged _ (Clock.frozen T) k HN). cbn [fst].
  rewrite survivors_frozen. reflexivity.
Qed.

Lemma filter_twice {A : Type} (f : A -> bool) (l : list A) :
  filter f (filter f l) = filter f l.
Proof.
  induction l as [ | x l IH ]; cbn; [ reflexivity | ].
  destruct (f x) eqn:E; cbn; rewrite ?E, IH; reflexivity.
Qed.

Lemma NoDup_ids_filter (f : DoseRow.t -> bool) (l : list DoseRow.t) :
  NoDup (map DoseRow.id l) -> NoDup (map DoseRow.id (filter f l)).
Proof.
  induction l as [ | x l IH ]; cbn; intros HN; [ constructor | ].
  inversion HN as [ | ? ? Hx HN' ]; subst.
  destruct (f x); cbn; [ constructor | ]; auto.
  intros Hin. apply Hx. apply in_map_iff in Hin.
  destruct Hin as (y & Hy & Hin). apply filter_In in Hin.
  apply in_map_iff. exists y. tauto.
Qed.

(** X13.  When the clock stands still, clearing the expired rows a second
    time changes nothing: on a table of distinct rows the first call
    succeeds and the second returns the table the first has left. *)
Theorem clear_expired_twice (self : DoseManager.t) (T : Z) (k k' : nat) :
  DoseManager.unique_rows self ->
  exists s1 : DoseManager.t,
    fst (DoseManager.clear_expired self (Clock.frozen T) k) = Ok s1 /\
    fst (DoseManager.clear_expired s1 (Clock.frozen T) k') = Ok s1.
Proof.
  intros HN. rewrite (clear_expired_frozen self T k HN).
  eexists. split; [ reflexivity | ].
  rewrite clear_expired_frozen.
  - unfold DoseManager.set_rows. cbn. rewrite filter_twice. reflexivity.
  - unfold DoseManager.unique_rows. cbn. apply NoDup_ids_filter. exact HN.
Qed.

Lemma clear_expired_twice_witness :
  exists s1 : DoseManager.t,
    fst (DoseManager.clear_expired two_rows (Clock.frozen (seconds 31)) 0%nat) = Ok s1 /\
    fst (DoseManager.clear_expired s1 (Clock.frozen (seconds 31)) 2%nat) = Ok s1.
Proof.
  apply (clear_expired_twice two_rows (seconds 31) 0%nat 2%nat).
  unfold DoseManager.unique_rows. cbn.
  constructor; [ cbn; intros [ H | [] ]; discriminate | ].
  constructor; [ intros [] | constructor ].
Defined.

(** ** The poll loop over many passes *)

Lemma updater_turn_cases (start stop : Q) :
  ((stop - start <= DoseManager.update_frequency)%Q /\
   DoseManager.updater_turn start stop
   = Ok (DoseManager.sleep_length start stop)) \/
  ((DoseManager.update_frequency < stop - start)%Q /\
   DoseManager.updater_turn start stop = Raise ValueError).
Proof.
  unfold DoseManager.updater_turn, DoseManager.time_sleep, DoseManager.sleep_length.
  destruct (Qle_bool 0 (DoseManager.update_frequency - (stop - start))) eqn:E.
  - left. apply Qle_bool_iff in E. split; [ lra | reflexivity ].
  - right. split; [ | reflexivity ].
    apply Qnot_le_lt. intros H.
    assert (H0 : (0 <= DoseManager.update_frequency - (stop - start))%Q) by lra.
    apply Qle_bool_iff in H0. rewrite H0 in E. discriminate.
Qed.

(** X14.  The loop of [_updater] goes through all its passes, sleeping
    [update_frequency] minus the time of the pass after each, when no pass
    takes longer than [update_frequency]; as soon as one pass takes
    longer, the loop ends with [ValueError]. *)
Theorem updater_runs_or_dies (passes : list (Q * Q)) :
  (Forall (fun p => (snd p - fst p <= DoseManager.update_frequency)%Q) passes ->
   DoseManager._updater passes
   = Ok (map (fun p => DoseManager.sleep_length (fst p) (snd p)) passes)) /\
  (Exists (fun p => (DoseManager.update_frequency < snd p - fst p)%Q) passes ->
   DoseManager._updater passes = Raise ValueError).
Proof.
  induction passes as [ | [start stop] rest [IHok IHdie] ]; split; intros H.
  - reflexivity.
  - inversion H.
  - inversion H as [ | ? ? Hhd Htl ]; subst. cbn [fst snd] in Hhd.
    cbn [DoseManager._updater map fst snd].
    destruct (updater_turn_cases start stop) as [ [_ E] | [Hlt _] ]; [ | lra ].
    rewrite E, (IHok Htl). reflexivity.
  - cbn [DoseManager._updater].
    destruct (updater_turn_cases start stop) as [ [Hle E] | [_ E] ]; rewrite E;
      [ | reflexivity ].
    inversion H as [ ? ? Hhd | ? ? Htl ]; subst.
    + cbn [fst snd] in Hhd. lra.
    + rewrite (IHdie Htl). reflexivity.
Qed.

Lemma updater_runs_or_dies_witness :
  DoseManager._updater [(0, 1 # 10); (1 # 2, 1)]%Q = Raise ValueError.
Proof.
  apply (proj2 (updater_runs_or_dies [(0, 1 # 10); (1 # 2, 1)]%Q)).
  apply Exists_cons_tl. apply Exists_cons_hd. reflexivity.
Defined.

(** ** The add button *)





(** ** The timer of utils *)

(** X17.  [timer f] returns the result of [f] unchanged and reads the
    counter once before and once after it; on a counter that never goes
    back the duration it reports is not negative. *)
Theorem timer_spec {A : Type} (f : Utils.Timed A) (p : Utils.PerfCounter) (k : nat) :
  Utils.result (fst (Utils.timer f p k)) = fst (f p (S k)) /\
  snd (Utils.timer f p k) = S (snd (f p (S k))) /\
  Utils.duration (fst (Utils.timer f p k)) == p (snd (f p (S k))) - p k /\
  (Utils.nondecreasing p ->
   (k <= snd (f p (S k)))%nat ->
   0 <= Utils.duration (fst (Utils.timer f p k)))%Q.
Proof.
  unfold Utils.timer. destruct (f p (S k)) as [r k1]. cbn.
  repeat split; try reflexivity.
  intros Hmono Hk. specialize (Hmono k k1 Hk). lra.
Qed.

Lemma timer_spec_witness :
  (0 <= Utils.duration (fst (Utils.timer seven tenths 3%nat)))%Q.
Proof.
  apply (timer_spec seven tenths 3%nat).
  - intros i j Hij. unfold tenths, Qle. cbn. lia.
  - cbn. lia.
Defined.
